(** * The NLP report generator of [app.py]: text sanitizer and report renderer

    Python text is a sequence of Unicode code points, a [bytes] object a
    sequence of bytes.  The sanitizer [sanitize_text] is embedded on these
    sequences with the semantics of [str.replace], of the [latin-1] codec
    and of a dictionary iterated in insertion order.  The renderer is
    embedded as the sequence of calls the script makes on its [PDF] object,
    and the page of the application as the sequence of its interface
    actions. *)

From Stdlib Require Import List NArith ZArith Bool Lia Ascii String Strings.Byte.
From Stdlib Require Import DecimalString DecimalZ Permutation.
Import ListNotations.

(** ** Text, bytes and Python values *)

(** A code point, between 0 and 0x10FFFF. *)
Definition code_point := N.

(** A Python [str]. *)
Definition str := list code_point.

(** A Python [bytes]. *)
Definition bytes := list byte.

(** A source literal made of ASCII characters only. *)
Definition lit (s : string) : str :=
  map N_of_ascii (list_ascii_of_string s).

(** The values [sanitize_text] may be called with.  A float is represented
    by the text [repr] prints for it, which determines it. *)
#[warnings="-register-all"]
Inductive value : Type :=
| VNone
| VBool (b : bool)
| VInt (z : Z)
| VFloat (repr : str)
| VStr (s : str)
| VBytes (b : bytes)
| VList (l : list value).

(** [isinstance(v, str)] *)
Definition isinstance_str (v : value) : bool :=
  match v with
  | VStr _ => true
  | _ => false
  end.

(** ** Exceptions *)

Inductive exn : Type :=
| UnicodeEncodeError (c : code_point)
| FPDFUnicodeEncodingException (c : code_point)
| FileNotFoundError (path : string)
| EmptyDataError
| ParserError.

Inductive result (A : Type) : Type :=
| Ok (a : A)
| Raise (e : exn).

Arguments Ok {A} a.
Arguments Raise {A} e.

Definition bind {A B} (r : result A) (k : A -> result B) : result B :=
  match r with
  | Ok a => k a
  | Raise e => Raise e
  end.

Notation "x <- r ;; k" := (bind r (fun x => k))
  (at level 61, r at next level, right associativity).

(** ** [str.replace] *)

(** [s.startswith(prefix)] *)
Fixpoint startswith (s prefix : str) {struct prefix} : bool :=
  match prefix, s with
  | [], _ => true
  | _ :: _, [] => false
  | p :: prefix', c :: s' => N.eqb c p && startswith s' prefix'
  end.

(** The scan of [str.replace] for a pattern that is not empty: the leftmost
    occurrence is replaced, the scan resumes behind it.  [skip] counts the
    characters of an occurrence that are still to be passed over. *)
Fixpoint replace_from (old new : str) (skip : nat) (s : str) : str :=
  match s with
  | [] => []
  | c :: rest =>
      match skip with
      | S k => replace_from old new k rest
      | O =>
          if startswith s old
          then new ++ replace_from old new (pred (List.length old)) rest
          else c :: replace_from old new 0 rest
      end
  end.

(** [s.replace(old, new)]; an empty [old] matches before every character and
    at the end. *)
Definition replace (s old new : str) : str :=
  match old with
  | [] => new ++ flat_map (fun c => c :: new) s
  | _ :: _ => replace_from old new 0 s
  end.

(** ** The [latin-1] codec *)

Inductive error_handler : Type :=
| Strict
| Ignore
| Replace.

(** [s.encode("latin-1", errors)]: a code point up to 255 is its own byte;
    any other is handed to the error handler. *)
Fixpoint encode_latin1 (errors : error_handler) (s : str) : result bytes :=
  match s with
  | [] => Ok []
  | c :: rest =>
      match Byte.of_N c with
      | Some b => bs <- encode_latin1 errors rest ;; Ok (b :: bs)
      | None =>
          match errors with
          | Strict => Raise (UnicodeEncodeError c)
          | Ignore => encode_latin1 errors rest
          | Replace => bs <- encode_latin1 errors rest ;; Ok ("?"%byte :: bs)
          end
      end
  end.

(** [b.decode("latin-1")]: every byte is a code point. *)
Definition decode_latin1 (b : bytes) : result str :=
  Ok (map Byte.to_N b).

(** ** The sanitizer *)

(** The dictionary [replacements], in insertion order, which is the order
    [items()] yields. *)
Definition replacements : list (str * str) :=
  [ ([8377%N], lit "Rs");   (* U+20B9 rupee sign *)
    ([8211%N], lit "-");    (* U+2013 en dash *)
    ([8212%N], lit "-");    (* U+2014 em dash *)
    ([8217%N], lit "'");    (* U+2019 right single quotation mark *)
    ([8216%N], lit "'");    (* U+2018 left single quotation mark *)
    ([8220%N], [34%N]);     (* U+201C left double quotation mark *)
    ([8221%N], [34%N]) ].   (* U+201D right double quotation mark *)

(** [for k, v in items: text = text.replace(k, v)] *)
Definition apply_replacements (items : list (str * str)) (text : str) : str :=
  fold_left (fun text kv => replace text (fst kv) (snd kv)) items text.

Definition sanitize_text (text : value) : result str :=
  match text with
  | VStr text =>
      let text := apply_replacements replacements text in
      b <- encode_latin1 Ignore text ;;
      decode_latin1 b
  | _ => Ok []
  end.

(** ** Tables *)

(** A field of a table read by [pandas.read_csv], as the loops of the
    script receive it: text, an integer, a float (a missing field is the
    float [nan]; floats are represented by their [repr]) or a boolean. *)
Inductive cell : Type :=
| CStr (s : str)
| CInt (z : Z)
| CFloat (repr : str)
| CBool (b : bool).

Definition value_of_cell (c : cell) : value :=
  match c with
  | CStr s => VStr s
  | CInt z => VInt z
  | CFloat r => VFloat r
  | CBool b => VBool b
  end.

Coercion value_of_cell : cell >-> value.

(** [str(z)] for an integer: its decimal digits, behind a minus sign when it
    is negative. *)
Definition str_of_int (z : Z) : str :=
  lit (NilZero.string_of_int (Z.to_int z)).

(** [str(c)] *)
Definition py_str (c : cell) : str :=
  match c with
  | CStr s => s
  | CInt z => str_of_int z
  | CFloat r => r
  | CBool true => lit "True"
  | CBool false => lit "False"
  end.

(** A record of [trending_topics.csv].  The tables are taken with the
    columns the script reads, so that [row["title"]] is the field [title];
    the other columns of this table are not read. *)
Record TrendingTopic : Type := { title : cell }.

(** A record of [word_frequency_table.csv], as [iterrows] yields it.  A row
    comes with the fields as they were read when a column of the table
    holds text, which is so when the words are text; in a table of numbers
    only, [iterrows] turns the integers of a row into floats, and such a row
    is given here with its floats. *)
Record WordFrequency : Type := { word : cell; frequency : cell }.

(** [df.head(n)] *)
Definition head {A} (n : nat) (df : list A) : list A := firstn n df.

(** ** The calls on the [PDF] object *)

(** The text argument of a draw call, as the call site writes it. *)
Inductive text_expr : Type :=
| Literal (s : str)              (* a literal or an f-string *)
| SanitizeText (v : value)       (* [sanitize_text(v)] *)
| StrOf (c : cell)               (* [str(c)] *)
| Concat (a b : text_expr).      (* [a + b] *)

(** The text Python evaluates the argument to, before the call. *)
Fixpoint eval (e : text_expr) : result str :=
  match e with
  | Literal s => Ok s
  | SanitizeText v => sanitize_text v
  | StrOf c => Ok (py_str c)
  | Concat a b => x <- eval a ;; y <- eval b ;; Ok (x ++ y)
  end.

(** A width: [0], which extends the cell to the right margin, or
    [usable_width * tenths / 10] with
    [usable_width = pdf.w - pdf.l_margin - pdf.r_margin]. *)
Inductive width : Type :=
| ToRightMargin
| UsableWidth (tenths : N).

Definition usable_width : width := UsableWidth 10.

Inductive font_style : Type := Regular | Bold.
Inductive Align : Type := AlignL | AlignC.
Inductive XPos : Type := XRIGHT | XLMARGIN.
Inductive YPos : Type := YTOP | YNEXT.

Inductive call : Type :=
| SetAutoPageBreak (auto : bool) (margin : N)
| AddPage
| SetFont (family : string) (style : font_style) (size : N)
| SetY (y : Z)
| Cell (w : width) (h : N) (text : text_expr) (border : N)
       (align : Align) (new_x : XPos) (new_y : YPos)
| MultiCell (w : width) (h : N) (text : text_expr)
| Ln (h : option N)
| Output (path : string).

(** The text a draw operation is handed, if the call is one. *)
Definition call_text (c : call) : option text_expr :=
  match c with
  | Cell _ _ text _ _ _ _ => Some text
  | MultiCell _ _ text => Some text
  | _ => None
  end.

(** The [PDF] object: the number of the current page and the calls made on
    it so far, oldest first. *)
Record PDF : Type := { page_no : nat; calls : list call }.

Definition new_PDF : PDF := {| page_no := 0; calls := [] |}.

Definition emit (c : call) (self : PDF) : PDF :=
  {| page_no := page_no self; calls := calls self ++ [c] |}.

Definition set_auto_page_break auto margin := emit (SetAutoPageBreak auto margin).
Definition set_font family style size := emit (SetFont family style size).
Definition set_y y := emit (SetY y).
Definition ln h := emit (Ln h).

(** [multi_cell(w, h, text)].  The call is recorded; the header and footer
    the library draws by itself when the text overflows the page are not
    calls of the script and are not recorded. *)
Definition multi_cell w h text := emit (MultiCell w h text).

(** [cell(w, h, text)] with the defaults of the keyword arguments.  The call
    is recorded; whether the layout engine accepts its text is decided by
    [draw] below. *)
Definition pdf_cell w h text (border : N) (align : Align)
    (new_x : XPos) (new_y : YPos) :=
  emit (Cell w h text border align new_x new_y).

(** [PDF.header] *)
Definition header (self : PDF) : PDF :=
  let self := set_font "Helvetica" Bold 11 self in
  pdf_cell ToRightMargin 10
    (Literal (lit "Trending Topics NLP Analysis Report"))
    0 AlignC XLMARGIN YNEXT self.

(** [PDF.footer] *)
Definition footer (self : PDF) : PDF :=
  let self := set_y (-15) self in
  let self := set_font "Helvetica" Regular 8 self in
  pdf_cell ToRightMargin 10
    (Literal (lit "Page " ++ str_of_int (Z.of_nat (page_no self))))
    0 AlignC XRIGHT YTOP self.

(** Modelled from the spec: [FPDF.add_page] belongs to the layout library,
    which is not among the sources; every page carries the running header
    and the footer, generated automatically.  [add_page] closes the current
    page, if there is one, with [footer], begins the next one and calls
    [header].  The page breaks the library inserts by itself when a page is
    full make the same two calls; where they fall depends on font metrics
    and is left out. *)
Definition add_page (self : PDF) : PDF :=
  let self := if Nat.ltb 0 (page_no self) then footer self else self in
  let self := {| page_no := S (page_no self); calls := calls self ++ [AddPage] |} in
  header self.

(** Modelled from the spec: [FPDF.output] belongs to the layout library as
    well; it closes the last page with [footer] and writes the file. *)
Definition output (path : string) (self : PDF) : PDF :=
  let self := if Nat.ltb 0 (page_no self) then footer self else self in
  emit (Output path) self.

(** ** The report *)

Definition cover (pdf : PDF) : PDF :=
  let pdf := add_page pdf in
  let pdf := set_font "Helvetica" Bold 20 pdf in
  let pdf := pdf_cell ToRightMargin 20
               (Literal (lit "NLP Based Trending Topics Report"))
               0 AlignC XLMARGIN YNEXT pdf in
  let pdf := ln (Some 10%N) pdf in
  let pdf := set_font "Helvetica" Regular 12 pdf in
  multi_cell usable_width 8
    (SanitizeText (VStr (lit
       "This report presents an end to end Natural Language Processing analysis of trending news data using API based collection, TF IDF analysis, and statistical techniques.")))
    pdf.

Definition executive_summary (df : list TrendingTopic) (pdf : PDF) : PDF :=
  let pdf := add_page pdf in
  let pdf := set_font "Helvetica" Bold 14 pdf in
  let pdf := pdf_cell ToRightMargin 10
               (Literal (lit "Executive Summary"))
               0 AlignL XLMARGIN YNEXT pdf in
  let pdf := set_font "Helvetica" Regular 11 pdf in
  multi_cell usable_width 7
    (SanitizeText (VStr (
       lit "- Total articles analyzed: "
         ++ str_of_int (Z.of_nat (List.length df)) ++ [10%N]
         ++ lit "- Finance, sports, and global news dominate trends" ++ [10%N]
         ++ lit "- TF IDF highlights article specific relevance")))
    pdf.

(** The body of the loop over [word_freq.head(20).iterrows()]. *)
Definition word_frequency_row (pdf : PDF) (row : WordFrequency) : PDF :=
  let pdf := pdf_cell (UsableWidth 6) 8
               (SanitizeText (word row)) 1 AlignL XRIGHT YTOP pdf in
  let pdf := pdf_cell (UsableWidth 4) 8
               (StrOf (frequency row)) 1 AlignL XRIGHT YTOP pdf in
  ln None pdf.

Definition word_frequency (word_freq : list WordFrequency) (pdf : PDF) : PDF :=
  let pdf := add_page pdf in
  let pdf := set_font "Helvetica" Bold 14 pdf in
  let pdf := pdf_cell ToRightMargin 10
               (Literal (lit "Word Frequency Analysis"))
               0 AlignL XLMARGIN YNEXT pdf in
  let pdf := ln (Some 5%N) pdf in
  let pdf := set_font "Helvetica" Bold 10 pdf in
  let pdf := pdf_cell (UsableWidth 6) 8 (Literal (lit "Word"))
               1 AlignL XRIGHT YTOP pdf in
  let pdf := pdf_cell (UsableWidth 4) 8 (Literal (lit "Frequency"))
               1 AlignL XRIGHT YTOP pdf in
  let pdf := ln None pdf in
  let pdf := set_font "Helvetica" Regular 10 pdf in
  fold_left word_frequency_row (head 20 word_freq) pdf.

(** The body of the loop over [df["title"]]. *)
Definition appendix_entry (pdf : PDF) (title : cell) : PDF :=
  multi_cell usable_width 6
    (Concat (Literal (lit "- ")) (SanitizeText title)) pdf.

Definition appendix (df : list TrendingTopic) (pdf : PDF) : PDF :=
  let pdf := add_page pdf in
  let pdf := set_font "Helvetica" Bold 14 pdf in
  let pdf := pdf_cell ToRightMargin 10
               (Literal (lit "Appendix: Top Headlines"))
               0 AlignL XLMARGIN YNEXT pdf in
  let pdf := set_font "Helvetica" Regular 10 pdf in
  fold_left appendix_entry (map title df) pdf.

Definition pdf_path : string := "BEST_ASCII_SAFE_NLP_REPORT.pdf".

(** The body of [if st.button("Generate PDF")], up to [pdf.output]. *)
Definition generate_pdf (df : list TrendingTopic)
    (word_freq : list WordFrequency) : PDF :=
  let pdf := new_PDF in
  let pdf := set_auto_page_break true 15 pdf in
  let pdf := cover pdf in
  let pdf := executive_summary df pdf in
  let pdf := word_frequency word_freq pdf in
  let pdf := appendix df pdf in
  output pdf_path pdf.

(** The texts handed to the draw operations of a run, in order. *)
Definition drawn_texts (pdf : PDF) : list text_expr :=
  flat_map (fun c => match call_text c with Some e => [e] | None => [] end)
           (calls pdf).

(** Modelled from the spec: the layout library is not among the sources;
    it lays text out in a single-byte encoding, and a text that holds a
    character outside of it is an encoding failure of the draw operation.
    [draw c] is what the call [c] answers: a call that is handed no text
    succeeds, a draw operation succeeds when its text, once evaluated,
    encodes under the handler [strict]. *)
Definition draw (c : call) : result unit :=
  match call_text c with
  | None => Ok tt
  | Some e =>
      s <- eval e ;;
      match encode_latin1 Strict s with
      | Ok _ => Ok tt
      | Raise (UnicodeEncodeError x) => Raise (FPDFUnicodeEncodingException x)
      | Raise ex => Raise ex
      end
  end.

(** The calls of a sequence that are made before the first one raises, and
    the exception that ends the run, if any: nothing in the script catches
    it. *)
Fixpoint run (cs : list call) : list call * option exn :=
  match cs with
  | [] => ([], None)
  | c :: rest =>
      match draw c with
      | Raise ex => ([], Some ex)
      | Ok _ => let (made, ex) := run rest in (c :: made, ex)
      end
  end.

(** ** The page of the application *)

(** What [pandas.read_csv] answers for the two files of the repository. *)
Record files : Type := {
  trending_topics_csv : result (list TrendingTopic);
  word_frequency_table_csv : result (list WordFrequency)
}.

Definition tables : Type := (list TrendingTopic * list WordFrequency)%type.

(** The body of [load_data]. *)
Definition load_data (fs : files) : result tables :=
  df <- trending_topics_csv fs ;;
  word_freq <- word_frequency_table_csv fs ;;
  Ok (df, word_freq).

(** Modelled from the spec: the decorator [@st.cache_data] belongs to the
    interface library; the tables are loaded once and reused.  A value that
    was returned is kept and returned again without running the body; an
    exception is not kept. *)
Definition cache_data {A} (body : result A) (cache : option A)
  : result A * option A :=
  match cache with
  | Some a => (Ok a, cache)
  | None =>
      match body with
      | Ok a => (Ok a, Some a)
      | Raise e => (Raise e, None)
      end
  end.

(** What a run of the script does, as seen from outside; [uncaught] is the
    exception of a draw operation, which ends the run. *)
Inductive action : Type :=
| st_set_page_config (page_title layout : string)
| st_title (body : str)
| st_write (body : str)
| st_error (body : str)
| st_stop
| st_subheader (body : str)
| st_columns (n : nat)
| st_markdown (body : str)
| st_dataframe_topics (rows : list TrendingTopic)
| st_dataframe_words (rows : list WordFrequency)
| st_button (label : str)
| write_file (path : string) (document : list call)
| st_success (body : str)
| st_download_button (label : str) (data : string) (file_name : string)
                     (mime : string)
| uncaught (ex : exn).

(** The statements of the script before [load_data]. *)
Definition page_config : list action :=
  [ st_set_page_config "NLP Report Generator" "wide";
    st_title (128196%N :: lit " NLP Trending Topics Report Generator");
    st_write (lit "Generate an ASCII-safe NLP PDF report from trending news data.") ].

Definition data_preview (df : list TrendingTopic)
    (word_freq : list WordFrequency) : list action :=
  [ st_subheader (128202%N :: lit " Data Preview");
    st_columns 2;
    st_markdown (lit "**Trending Topics**");
    st_dataframe_topics (head 5 df);
    st_markdown (lit "**Word Frequency**");
    st_dataframe_words (head 10 word_freq) ].

Definition pdf_generation (df : list TrendingTopic)
    (word_freq : list WordFrequency) (clicked : bool) : list action :=
  [ st_subheader (128196%N :: lit " Generate PDF Report");
    st_button (lit "Generate PDF") ]
  ++ (if clicked
      then
        let pdf := generate_pdf df word_freq in
        match run (calls pdf) with
        | (made, None) =>
            [ write_file pdf_path made;
              st_success (lit "PDF generated successfully!");
              st_download_button (11015%N :: 65039%N :: lit " Download PDF")
                pdf_path pdf_path "application/pdf" ]
        | (_, Some ex) => [uncaught ex]
        end
      else []).

(** One run of the script: [clicked] is what [st.button] answers, [cache]
    the cache of [load_data] before the run; the run yields its actions and
    the cache behind it.  [st.stop()] ends the run. *)
Definition app (fs : files) (cache : option tables) (clicked : bool)
  : list action * option tables :=
  match cache_data (load_data fs) cache with
  | (Ok (df, word_freq), cache) =>
      (page_config ++ data_preview df word_freq
         ++ pdf_generation df word_freq clicked, cache)
  | (Raise e, cache) =>
      (page_config ++ [st_error (lit "CSV files not found or invalid."); st_stop],
       cache)
  end.

(** An action that produces the report or offers it for download. *)
Definition is_output (a : action) : bool :=
  match a with
  | write_file _ _ => true
  | st_download_button _ _ _ _ => true
  | _ => false
  end.

(** ** Notions the properties are stated with *)

(** A code point the [latin-1] codec represents. *)
Definition latin1 (c : code_point) : bool := N.leb c 255.

(** A code point of the ASCII range. *)
Definition ascii7 (c : code_point) : bool := N.leb c 127.

(** The table of substitutions read as a function on one character: the
    text a character becomes. *)
Definition substitute (c : code_point) : str :=
  if N.eqb c 8377 then lit "Rs"
  else if N.eqb c 8211 then lit "-"
  else if N.eqb c 8212 then lit "-"
  else if N.eqb c 8217 then lit "'"
  else if N.eqb c 8216 then lit "'"
  else if N.eqb c 8220 then [34%N]
  else if N.eqb c 8221 then [34%N]
  else [c].

(** A character one of the seven rules replaces. *)
Definition trigger (c : code_point) : bool :=
  existsb (fun kv => match fst kv with [k] => N.eqb c k | _ => false end)
          replacements.

(** The text the first rule of [items] whose key is the character [c] gives
    for it; the character itself when there is none. *)
Fixpoint rule_for (items : list (str * str)) (c : code_point) : str :=
  match items with
  | [] => [c]
  | (k, v) :: rest =>
      if list_eq_dec N.eq_dec k [c] then v else rule_for rest c
  end.

(** Every key is one character. *)
Definition single_keys (items : list (str * str)) : Prop :=
  forall k v, In (k, v) items -> exists a, k = [a].

(** No replacement text holds a character that is a key. *)
Definition inert (items : list (str * str)) : Prop :=
  forall k v k' v' c,
    In (k, v) items -> In (k', v') items -> In c v -> k' <> [c].

(** The integer a decimal text denotes. *)
Definition int_of_str (s : str) : option Z :=
  option_map Z.of_int
    (NilZero.int_of_string (string_of_list_ascii (map ascii_of_N s))).

(** The calls of one row of the word-frequency table. *)
Definition word_frequency_row_calls (row : WordFrequency) : list call :=
  [ Cell (UsableWidth 6) 8 (SanitizeText (word row)) 1 AlignL XRIGHT YTOP;
    Cell (UsableWidth 4) 8 (StrOf (frequency row)) 1 AlignL XRIGHT YTOP;
    Ln None ].


(** The call of one entry of the appendix. *)
Definition appendix_entry_call (record : TrendingTopic) : call :=
  MultiCell usable_width 6
    (Concat (Literal (lit "- ")) (SanitizeText (title record))).


(** How a text can come to a draw operation: out of [sanitize_text], as a
    fixed ASCII literal, as ["- "] followed by sanitized text, or as [str]
    of the frequency of one of the rows of the table. *)
Definition origin (word_freq : list WordFrequency) (e : text_expr) : Prop :=
  (exists v, e = SanitizeText v)
  \/ (exists s, e = Literal s /\ forallb ascii7 s = true)
  \/ (exists v, e = Concat (Literal (lit "- ")) (SanitizeText v))
  \/ (exists row, In row (head 20 word_freq) /\ e = StrOf (frequency row)).

(** A call hands the layout engine no text, or a text of one of these
    origins. *)
Definition handed (word_freq : list WordFrequency) (c : call) : Prop :=
  match call_text c with
  | Some e => origin word_freq e
  | None => True
  end.

Definition all_handed (word_freq : list WordFrequency) (pdf : PDF) : Prop :=
  Forall (handed word_freq) (calls pdf).

(** The frequencies of the rows of the table are integers. *)
Definition integer_frequencies (word_freq : list WordFrequency) : Prop :=
  forall row, In row (head 20 word_freq) -> exists z, frequency row = CInt z.

(** ** The report as one sequence of calls

    The calls the script makes from [PDF()] to [pdf.output], in order, when
    none of them raises; [run] gives the part of them that is made. *)





(** The text of the f-string of the summary for a table of [n] records. *)
Definition summary_text (n : nat) : str :=
  lit "- Total articles analyzed: " ++ str_of_int (Z.of_nat n) ++ [10%N]
    ++ lit "- Finance, sports, and global news dominate trends" ++ [10%N]
    ++ lit "- TF IDF highlights article specific relevance".



(** Every call of a sequence is accepted. *)
Definition accepted (cs : list call) : Prop :=
  Forall (fun c => draw c = Ok tt) cs.


(** * Properties *)

(** ** Single-character replacement *)

Lemma replace_single (s : str) (a : code_point) (v : str) :
  replace s [a] v = flat_map (fun c => if N.eqb c a then v else [c]) s.
Proof.
  unfold replace.
  induction s as [|c s IH]; [reflexivity|].
  cbn [replace_from flat_map startswith List.length pred].
  rewrite andb_true_r, IH.
  destruct (N.eqb c a); reflexivity.
Qed.

Lemma flat_map_flat_map {A B C} (f : A -> list B) (g : B -> list C) l :
  flat_map g (flat_map f l) = flat_map (fun x => flat_map g (f x)) l.
Proof.
  induction l as [|x l IH]; [reflexivity|].
  cbn. now rewrite flat_map_app, IH.
Qed.

Lemma flat_map_singleton {A} (l : list A) :
  flat_map (fun x => [x]) l = l.
Proof. induction l as [|x l IH]; cbn; congruence. Qed.

Lemma flat_map_fixes {A} (f : A -> list A) (l : list A) :
  (forall x, In x l -> f x = [x]) -> flat_map f l = l.
Proof.
  induction l as [|x l IH]; intros Hfix; [reflexivity|].
  cbn. rewrite (Hfix x (or_introl eq_refl)), IH; [reflexivity|].
  intros y Hy. apply Hfix. now right.
Qed.

Lemma rule_for_no_key items c :
  (forall k v, In (k, v) items -> k <> [c]) -> rule_for items c = [c].
Proof.
  induction items as [|[k v] rest IH]; intros Hno; [reflexivity|].
  cbn. destruct (list_eq_dec N.eq_dec k [c]) as [->|_].
  - exfalso. apply (Hno [c] v); [now left|reflexivity].
  - apply IH. intros k' v' Hin. apply (Hno k' v'). now right.
Qed.

Lemma rule_for_key items c v :
  NoDup (map fst items) -> In ([c], v) items -> rule_for items c = v.
Proof.
  induction items as [|[k w] rest IH]; intros Hnd Hin; [contradiction|].
  cbn in *. inversion Hnd as [|? ? Hnotin Hnd']; subst.
  destruct (list_eq_dec N.eq_dec k [c]) as [->|Hne].
  - destruct Hin as [Heq|Hin]; [congruence|].
    exfalso. apply Hnotin. now apply (in_map fst) in Hin.
  - destruct Hin as [Heq|Hin]; [congruence|]. now apply IH.
Qed.

Lemma rule_for_cases items c :
  (exists v, In ([c], v) items /\ rule_for items c = v)
  \/ ((forall k v, In (k, v) items -> k <> [c]) /\ rule_for items c = [c]).
Proof.
  induction items as [|[k w] rest IH];
    [right; split; [intros ? ? []|reflexivity]|].
  cbn. destruct (list_eq_dec N.eq_dec k [c]) as [->|Hne].
  - left. exists w. split; [now left|reflexivity].
  - destruct IH as [(v & Hin & Hv)|(Hno & Hv)].
    + left. exists v. split; [now right|assumption].
    + right. split; [|assumption].
      intros k' v' [Heq|Hin]; [congruence|now apply (Hno k' v')].
Qed.

Lemma single_keys_tail kv items :
  single_keys (kv :: items) -> single_keys items.
Proof. intros H k v Hin. apply (H k v). now right. Qed.

Lemma inert_tail kv items : inert (kv :: items) -> inert items.
Proof.
  intros H k v k' v' c Hin Hin'. apply (H k v k' v' c); now right.
Qed.

(** A table of one-character keys with inert replacement texts acts on
    every character by itself. *)
Lemma apply_replacements_pointwise items :
  single_keys items -> inert items ->
  forall s, apply_replacements items s = flat_map (rule_for items) s.
Proof.
  unfold apply_replacements.
  induction items as [|[k v] rest IH]; intros Hsingle Hinert s.
  - cbn. now rewrite flat_map_singleton.
  - destruct (Hsingle k v (or_introl eq_refl)) as [a ->].
    cbn [fold_left fst snd].
    rewrite IH by eauto using single_keys_tail, inert_tail.
    rewrite replace_single, flat_map_flat_map.
    apply flat_map_ext. intros c. cbn [rule_for].
    destruct (list_eq_dec N.eq_dec [a] [c]) as [Heq|Hne].
    + injection Heq as ->. rewrite N.eqb_refl.
      apply flat_map_fixes. intros x Hx.
      apply rule_for_no_key. intros k' v' Hin.
      apply (Hinert [c] v k' v' x); [now left|now right|assumption].
    + destruct (N.eqb_spec c a) as [->|_]; [congruence|].
      cbn. apply app_nil_r.
Qed.

Lemma single_keys_perm items items' :
  Permutation items items' -> single_keys items -> single_keys items'.
Proof.
  intros Hp H k v Hin. apply (H k v).
  apply Permutation_in with (l := items'); [now apply Permutation_sym|assumption].
Qed.

Lemma inert_perm items items' :
  Permutation items items' -> inert items -> inert items'.
Proof.
  intros Hp H k v k' v' c Hin Hin'.
  apply Permutation_sym in Hp.
  apply (H k v k' v' c); eapply Permutation_in; eassumption.
Qed.

Lemma rule_for_perm items items' c :
  NoDup (map fst items) -> Permutation items items' ->
  rule_for items' c = rule_for items c.
Proof.
  intros Hnd Hp.
  destruct (rule_for_cases items' c) as [(v & Hin & ->)|(Hno & ->)].
  - symmetry. apply rule_for_key; [assumption|].
    apply Permutation_in with (l := items'); [now apply Permutation_sym|assumption].
  - symmetry. apply rule_for_no_key. intros k v Hin.
    apply (Hno k v). eapply Permutation_in; eassumption.
Qed.

(** ** The table of the source *)

Lemma replacements_single_keys : single_keys replacements.
Proof.
  intros k v Hin. cbn in Hin.
  repeat (destruct Hin as [Heq|Hin];
          [injection Heq as <- <-; eexists; reflexivity|]).
  contradiction.
Qed.

Lemma replacements_inert : inert replacements.
Proof.
  intros k v k' v' c Hin Hin' Hc Hk. subst k'.
  assert (Hbig : (255 < c)%N).
  { cbn in Hin'.
    repeat (destruct Hin' as [Heq|Hin'];
            [injection Heq as <- _; reflexivity|]).
    contradiction. }
  assert (Hsmall : (c <= 255)%N).
  { cbn in Hin.
    repeat (destruct Hin as [Heq|Hin];
            [injection Heq as _ <-; cbn in Hc;
             repeat (destruct Hc as [<-|Hc]; [discriminate|]);
             contradiction|]).
    contradiction. }
  lia.
Qed.

Lemma replacements_keys_distinct : NoDup (map fst replacements).
Proof.
  cbn. repeat (constructor; [cbn; intuition discriminate|]). constructor.
Qed.

Lemma rule_for_replacements c : rule_for replacements c = substitute c.
Proof.
  unfold substitute, replacements, rule_for.
  repeat match goal with
  | |- context [list_eq_dec N.eq_dec [?a] [c]] =>
      destruct (list_eq_dec N.eq_dec [a] [c]) as [Heq|Hne];
      [injection Heq as <-; reflexivity|];
      destruct (N.eqb_spec c a) as [Hc|_];
      [exfalso; apply Hne; now rewrite Hc|]; clear Hne
  end.
  reflexivity.
Qed.

Lemma apply_replacements_substitute s :
  apply_replacements replacements s = flat_map substitute s.
Proof.
  rewrite apply_replacements_pointwise
    by (apply replacements_single_keys || apply replacements_inert).
  apply flat_map_ext, rule_for_replacements.
Qed.

Lemma substitute_latin1 c : latin1 c = true -> substitute c = [c].
Proof.
  unfold latin1, substitute. intros Hc. apply N.leb_le in Hc.
  repeat match goal with
  | |- context [N.eqb c ?a] => destruct (N.eqb_spec c a) as [Heq|_]; [lia|]
  end.
  reflexivity.
Qed.

Lemma substitute_not_trigger c : trigger c = false -> substitute c = [c].
Proof.
  unfold trigger, substitute. cbn [existsb replacements fst].
  intros Hc.
  repeat match goal with
  | |- context [if N.eqb c ?a then _ else _] =>
      destruct (N.eqb c a); [discriminate Hc|]
  end.
  reflexivity.
Qed.

(** ** The codec *)

Lemma of_N_some_latin1 c b :
  Byte.of_N c = Some b -> latin1 c = true /\ Byte.to_N b = c.
Proof.
  intros H. split; [|now apply Byte.to_of_N].
  unfold latin1. apply N.leb_le.
  destruct (N.le_gt_cases c 255) as [Hle|Hgt]; [assumption|].
  apply Byte.of_N_None_iff in Hgt. congruence.
Qed.

Lemma of_N_none_latin1 c : Byte.of_N c = None -> latin1 c = false.
Proof.
  intros H. apply Byte.of_N_None_iff in H.
  unfold latin1. apply N.leb_gt. assumption.
Qed.

(** With the handler [ignore] the encoder never raises, and decoding its
    bytes gives the characters the codec represents, in their order. *)
Lemma encode_ignore_decode s :
  exists b, encode_latin1 Ignore s = Ok b /\ map Byte.to_N b = filter latin1 s.
Proof.
  induction s as [|c s (b & Hb & Hmap)]; [exists []; split; reflexivity|].
  cbn [encode_latin1 filter].
  destruct (Byte.of_N c) as [x|] eqn:Hc.
  - apply of_N_some_latin1 in Hc as [-> Hx].
    exists (x :: b). rewrite Hb. cbn [bind map].
    split; [reflexivity|now rewrite Hx, Hmap].
  - apply of_N_none_latin1 in Hc as ->. exists b. split; assumption.
Qed.

(** With the handler [strict] the same text may raise. *)
Example encode_strict_raises :
  encode_latin1 Strict [8377%N] = Raise (UnicodeEncodeError 8377%N).
Proof. reflexivity. Qed.

(** With the handler [strict] the encoder accepts the texts of code points
    up to 255, and decoding gives the text back. *)
Lemma encode_strict_decode s :
  Forall (fun c => (c <= 255)%N) s ->
  exists b, encode_latin1 Strict s = Ok b /\ decode_latin1 b = Ok s.
Proof.
  unfold decode_latin1.
  induction 1 as [|c s Hc _ (b & Hb & Hdec)]; [now exists []|].
  cbn [encode_latin1].
  destruct (Byte.of_N c) as [x|] eqn:Hx.
  - exists (x :: b). rewrite Hb. cbn [bind map]. split; [reflexivity|].
    apply Byte.to_of_N in Hx. injection Hdec as Hdec. now rewrite Hx, Hdec.
  - apply Byte.of_N_None_iff in Hx. lia.
Qed.


Lemma filter_latin1_bound s :
  Forall (fun c => (c <= 255)%N) (filter latin1 s).
Proof.
  apply Forall_forall. intros c Hc. apply filter_In in Hc as [_ Hc].
  now apply N.leb_le.
Qed.

Lemma filter_latin1_id s :
  Forall (fun c => (c <= 255)%N) s -> filter latin1 s = s.
Proof.
  induction 1 as [|c s Hc _ IH]; [reflexivity|].
  cbn. unfold latin1 at 1. apply N.leb_le in Hc. rewrite Hc. now f_equal.
Qed.

(** ** The sanitizer *)

Lemma sanitize_text_str s :
  sanitize_text (VStr s) = Ok (filter latin1 (apply_replacements replacements s)).
Proof.
  unfold sanitize_text.
  destruct (encode_ignore_decode (apply_replacements replacements s))
    as (b & -> & <-).
  reflexivity.
Qed.

Lemma sanitize_text_not_str v :
  isinstance_str v = false -> sanitize_text v = Ok [].
Proof. destruct v; cbn; intros H; (reflexivity || discriminate H). Qed.

Lemma sanitize_text_returns v :
  exists s, sanitize_text v = Ok s /\ Forall (fun c => (c <= 255)%N) s.
Proof.
  destruct v as [| | | |s| |];
    try (exists []; split; [reflexivity|constructor]).
  rewrite sanitize_text_str. eexists. split; [reflexivity|].
  apply filter_latin1_bound.
Qed.

Lemma sanitize_text_fixes s :
  Forall (fun c => (c <= 255)%N) s -> sanitize_text (VStr s) = Ok s.
Proof.
  intros Hs. rewrite sanitize_text_str, apply_replacements_substitute.
  rewrite flat_map_fixes.
  - now rewrite filter_latin1_id.
  - intros c Hc. apply substitute_latin1. apply N.leb_le.
    rewrite Forall_forall in Hs. now apply Hs.
Qed.

(** C2: before the encoding filter, every occurrence of each of the seven
    characters of the table is replaced by its text and nothing else is
    changed; the filter is then applied to the text so obtained; and the
    rupee sign before [100] gives [Rs100]. *)
Theorem sanitize_text_substitutes :
  (forall s, apply_replacements replacements s = flat_map substitute s)
  /\ (forall s,
        sanitize_text (VStr s) = Ok (filter latin1 (flat_map substitute s)))
  /\ substitute 8377%N = lit "Rs"
  /\ substitute 8211%N = lit "-" /\ substitute 8212%N = lit "-"
  /\ substitute 8217%N = lit "'" /\ substitute 8216%N = lit "'"
  /\ substitute 8220%N = [34%N] /\ substitute 8221%N = [34%N]
  /\ (forall c, ~ In [c] (map fst replacements) -> substitute c = [c])
  /\ sanitize_text (VStr (8377%N :: lit "100")) = Ok (lit "Rs100").
Proof.
  split; [exact apply_replacements_substitute|].
  split; [intros s; now rewrite sanitize_text_str, apply_replacements_substitute|].
  repeat (split; [reflexivity|]).
  split; [|reflexivity].
  intros c Hc. rewrite <- rule_for_replacements.
  apply rule_for_no_key. intros k v Hin ->. apply Hc.
  now apply (in_map fst) in Hin.
Qed.

(** C1, as the code has it: the result is the text after substitution with
    every character above 255 dropped and the others kept in their order,
    so it holds only code points up to 255; the empty text gives the empty
    text; a text made only of characters above 255 that no rule replaces
    gives the empty text. *)
Theorem sanitize_text_drops_unencodable (s : str) :
  sanitize_text (VStr s)
    = Ok (filter latin1 (apply_replacements replacements s))
  /\ (forall r, sanitize_text (VStr s) = Ok r ->
        Forall (fun c => (c <= 255)%N) r)
  /\ sanitize_text (VStr []) = Ok []
  /\ (Forall (fun c => (255 < c)%N /\ trigger c = false) s ->
        sanitize_text (VStr s) = Ok []).
Proof.
  split; [apply sanitize_text_str|].
  split.
  { intros r. rewrite sanitize_text_str. intros [= <-].
    apply filter_latin1_bound. }
  split; [reflexivity|].
  intros Hs. rewrite sanitize_text_str, apply_replacements_substitute.
  f_equal. induction Hs as [|c s [Hc Ht] _ IH]; [reflexivity|].
  cbn. rewrite (substitute_not_trigger _ Ht). cbn.
  unfold latin1 at 1. apply N.leb_gt in Hc. now rewrite Hc.
Qed.

Lemma sanitize_text_drops_unencodable_witness :
  sanitize_text (VStr [20013%N; 25991%N]) = Ok [].
Proof.
  apply (sanitize_text_drops_unencodable [20013%N; 25991%N]).
  repeat constructor.
Defined.

(** The rupee sign is above 255 and is replaced, not dropped. *)
Lemma sanitize_text_unencodable_counterexample :
  ~ (forall s, Forall (fun c => (255 < c)%N) s ->
               sanitize_text (VStr s) = Ok []).
Proof.
  intros H. specialize (H [8377%N]).
  assert (Hs : Forall (fun c => (255 < c)%N) [8377%N])
    by (repeat constructor).
  apply H in Hs. discriminate Hs.
Qed.

(** C3: the function returns for every value, and returns the empty text
    for every value that is not text. *)
Theorem sanitize_text_total (v : value) :
  (exists s, sanitize_text v = Ok s)
  /\ (isinstance_str v = false -> sanitize_text v = Ok []).
Proof.
  split; [|apply sanitize_text_not_str].
  destruct (sanitize_text_returns v) as (s & Hs & _). now exists s.
Qed.

Lemma sanitize_text_total_witness :
  sanitize_text VNone = Ok []
  /\ sanitize_text (VInt 42) = Ok []
  /\ sanitize_text (VList [VStr [8377%N]]) = Ok [].
Proof.
  split; [|split].
  - apply (sanitize_text_total VNone). reflexivity.
  - apply (sanitize_text_total (VInt 42)). reflexivity.
  - apply (sanitize_text_total (VList [VStr [8377%N]])). reflexivity.
Defined.

(** C4: sanitizing the result of the sanitizer gives that result again. *)
Theorem sanitize_text_idempotent (s : str) :
  (r <- sanitize_text (VStr s) ;; sanitize_text (VStr r))
  = sanitize_text (VStr s).
Proof.
  rewrite sanitize_text_str. cbn [bind].
  apply sanitize_text_fixes, filter_latin1_bound.
Qed.

(** C5: the loop gives the same text for every order of the seven rules,
    no replacement text holding a character that is a key. *)
Theorem replacements_order_insensitive (items : list (str * str)) :
  Permutation replacements items ->
  inert items
  /\ forall s, apply_replacements items s = apply_replacements replacements s.
Proof.
  intros Hp.
  assert (Hinert : inert items)
    by (eapply inert_perm; [eassumption|apply replacements_inert]).
  split; [assumption|]. intros s.
  rewrite (apply_replacements_pointwise
             items
             (single_keys_perm _ _ Hp replacements_single_keys) Hinert).
  rewrite (apply_replacements_pointwise replacements
             replacements_single_keys replacements_inert).
  apply flat_map_ext. intros c.
  apply rule_for_perm; [apply replacements_keys_distinct|assumption].
Qed.

Lemma replacements_order_insensitive_witness :
  apply_replacements (rev replacements) (8220%N :: 8377%N :: lit "5 - ok")
  = apply_replacements replacements (8220%N :: 8377%N :: lit "5 - ok").
Proof.
  apply (replacements_order_insensitive (rev replacements)).
  apply Permutation_rev.
Defined.

(** C10: a text of code points up to 255 is returned as it is. *)
Theorem sanitize_text_latin1_identity (s : str) :
  Forall (fun c => (c <= 255)%N) s -> sanitize_text (VStr s) = Ok s.
Proof. apply sanitize_text_fixes. Qed.

Lemma sanitize_text_latin1_identity_witness :
  sanitize_text (VStr [233%N; 255%N; 65%N]) = Ok [233%N; 255%N; 65%N].
Proof.
  apply (sanitize_text_latin1_identity [233%N; 255%N; 65%N]).
  repeat constructor; apply N.leb_le; reflexivity.
Defined.

(** ** Decimal texts *)

Lemma lit_app a b : lit (a ++ b) = (lit a ++ lit b)%list.
Proof.
  unfold lit. induction a as [|x a IH]; [reflexivity|].
  cbn. now rewrite IH.
Qed.

Lemma string_of_uint_ascii d :
  forallb ascii7 (lit (NilEmpty.string_of_uint d)) = true.
Proof. induction d; cbn; try assumption; reflexivity. Qed.

Lemma str_of_int_ascii z : forallb ascii7 (str_of_int z) = true.
Proof.
  unfold str_of_int.
  destruct (Z.to_int z) as [d|d]; cbn [NilZero.string_of_int].
  - destruct d; try apply string_of_uint_ascii; reflexivity.
  - change (forallb ascii7 (45%N :: lit (NilZero.string_of_uint d)) = true).
    cbn [forallb]. rewrite andb_true_l.
    destruct d; try apply string_of_uint_ascii; reflexivity.
Qed.

Lemma to_int_proper z :
  Z.to_int z <> Decimal.Pos Decimal.Nil /\ Z.to_int z <> Decimal.Neg Decimal.Nil.
Proof.
  destruct z as [|p|p]; cbn; split; try discriminate;
    intros [= H]; now apply (DecimalPos.Unsigned.to_uint_nonnil p).
Qed.

(** The text [str] gives for an integer denotes that integer. *)
Lemma int_of_str_of_int z : int_of_str (str_of_int z) = Some z.
Proof.
  unfold int_of_str, str_of_int, lit.
  rewrite map_map, (map_ext _ (fun a => a)) by apply ascii_N_embedding.
  rewrite map_id, string_of_list_ascii_of_string.
  destruct (to_int_proper z) as [Hp Hn].
  rewrite NilZero.isi by assumption.
  cbn. now rewrite DecimalZ.of_to.
Qed.

Lemma ascii7_latin1 s :
  forallb ascii7 s = true -> Forall (fun c => (c <= 255)%N) s.
Proof.
  intros H. apply Forall_forall. intros c Hc.
  rewrite forallb_forall in H. apply H in Hc.
  unfold ascii7 in Hc. apply N.leb_le in Hc. lia.
Qed.

(** ** The calls of the report *)

Lemma word_frequency_rows_fold rows pdf :
  fold_left word_frequency_row rows pdf
  = {| page_no := page_no pdf;
       calls := calls pdf ++ flat_map word_frequency_row_calls rows |}.
Proof.
  revert pdf. induction rows as [|row rows IH]; intros pdf.
  - cbn. rewrite app_nil_r. now destruct pdf.
  - cbn [fold_left flat_map]. rewrite IH. cbn.
    now rewrite <- !app_assoc.
Qed.

Lemma appendix_entries_fold df pdf :
  fold_left appendix_entry (map title df) pdf
  = {| page_no := page_no pdf;
       calls := calls pdf ++ map appendix_entry_call df |}.
Proof.
  revert pdf. induction df as [|record df IH]; intros pdf.
  - cbn. rewrite app_nil_r. now destruct pdf.
  - cbn [fold_left map]. rewrite IH. cbn.
    now rewrite <- !app_assoc.
Qed.


(** ** Draw operations *)





Lemma run_none cs made : run cs = (made, None) -> made = cs /\ accepted cs.
Proof.
  revert made. induction cs as [|c cs IH]; intros made.
  - cbn. intros [= <-]. split; [reflexivity|constructor].
  - cbn [run]. destruct (draw c) as [[]|ex] eqn:Hc; [|discriminate].
    destruct (run cs) as [made' [ex|]]; [discriminate|].
    intros [= <-]. destruct (IH made' eq_refl) as [-> Hcs].
    split; [reflexivity|]. now constructor.
Qed.










(** ** Where the texts of the draw operations come from *)

Section Origins.

Variable word_freq : list WordFrequency.

Lemma emit_handed c pdf :
  all_handed word_freq pdf -> handed word_freq c ->
  all_handed word_freq (emit c pdf).
Proof.
  unfold all_handed. cbn. intros Hpdf Hc.
  apply Forall_app. split; [assumption|]. now constructor.
Qed.

Lemma literal_handed s w h border align new_x new_y :
  forallb ascii7 s = true ->
  handed word_freq (Cell w h (Literal s) border align new_x new_y).
Proof. intros Hs. right. left. exists s. now split. Qed.

Ltac handed_calls :=
  repeat lazymatch goal with
  | |- all_handed _ (emit _ _) =>
      apply emit_handed;
      [|first [exact I | now apply literal_handed
              | left; eexists; reflexivity]]
  end.

Lemma header_handed pdf :
  all_handed word_freq pdf -> all_handed word_freq (header pdf).
Proof.
  intros H. unfold header, set_font, pdf_cell. cbv zeta.
  apply emit_handed; [apply emit_handed; [assumption|exact I]|].
  now apply literal_handed.
Qed.

Lemma footer_handed pdf :
  all_handed word_freq pdf -> all_handed word_freq (footer pdf).
Proof.
  intros H. unfold footer, set_font, set_y, pdf_cell. cbv zeta.
  apply emit_handed;
    [apply emit_handed; [apply emit_handed; [assumption|exact I]|exact I]|].
  apply literal_handed. rewrite forallb_app, str_of_int_ascii. reflexivity.
Qed.

Lemma add_page_handed pdf :
  all_handed word_freq pdf -> all_handed word_freq (add_page pdf).
Proof.
  intros H. unfold add_page. cbv zeta. apply header_handed.
  unfold all_handed. cbn [calls].
  apply Forall_app. split; [|repeat constructor].
  destruct (Nat.ltb 0 (page_no pdf)); [now apply footer_handed|assumption].
Qed.

Lemma output_handed path pdf :
  all_handed word_freq pdf -> all_handed word_freq (output path pdf).
Proof.
  intros H. unfold output. cbv zeta. apply emit_handed; [|exact I].
  destruct (Nat.ltb 0 (page_no pdf)); [now apply footer_handed|assumption].
Qed.

Lemma cover_handed pdf :
  all_handed word_freq pdf -> all_handed word_freq (cover pdf).
Proof.
  intros H. unfold cover, set_font, pdf_cell, ln, multi_cell. cbv zeta.
  handed_calls.
  now apply add_page_handed.
Qed.

Lemma executive_summary_handed df pdf :
  all_handed word_freq pdf ->
  all_handed word_freq (executive_summary df pdf).
Proof.
  intros H.
  unfold executive_summary, set_font, pdf_cell, multi_cell. cbv zeta.
  handed_calls.
  now apply add_page_handed.
Qed.

Lemma word_frequency_handed pdf :
  all_handed word_freq pdf ->
  all_handed word_freq (word_frequency word_freq pdf).
Proof.
  intros H. unfold word_frequency. cbv zeta.
  rewrite word_frequency_rows_fold.
  unfold all_handed. cbn [calls]. apply Forall_app. split.
  - lazymatch goal with
    | |- Forall _ (calls ?x) => change (all_handed word_freq x)
    end.
    unfold set_font, pdf_cell, ln.
    handed_calls.
    now apply add_page_handed.
  - apply Forall_flat_map, Forall_forall. intros row Hrow.
    unfold word_frequency_row_calls.
    constructor; [left; eexists; reflexivity|].
    constructor; [right; right; right; exists row; now split|].
    constructor; [exact I|constructor].
Qed.

Lemma appendix_handed df pdf :
  all_handed word_freq pdf -> all_handed word_freq (appendix df pdf).
Proof.
  intros H. unfold appendix. cbv zeta.
  rewrite appendix_entries_fold.
  unfold all_handed. cbn [calls]. apply Forall_app. split.
  - lazymatch goal with
    | |- Forall _ (calls ?x) => change (all_handed word_freq x)
    end.
    unfold set_font, pdf_cell.
    handed_calls.
    now apply add_page_handed.
  - apply Forall_forall. intros c Hc.
    apply in_map_iff in Hc as (record & <- & _).
    right. right. left. eexists. reflexivity.
Qed.

Lemma generate_pdf_handed df :
  all_handed word_freq (generate_pdf df word_freq).
Proof.
  unfold generate_pdf. cbv zeta.
  apply output_handed, appendix_handed, word_frequency_handed,
    executive_summary_handed, cover_handed.
  apply emit_handed; [constructor|exact I].
Qed.

(** A text of one of the origins evaluates without an exception, and to
    code points up to 255 when the frequencies are integers. *)
Lemma origin_latin1 e :
  origin word_freq e -> integer_frequencies word_freq ->
  exists s, eval e = Ok s /\ Forall (fun c => (c <= 255)%N) s.
Proof.
  intros [(v & ->)|[(s & -> & Hs)|[(v & ->)|(row & Hrow & ->)]]] Hint.
  - apply sanitize_text_returns.
  - exists s. split; [reflexivity|now apply ascii7_latin1].
  - destruct (sanitize_text_returns v) as (s & Hs & Hle).
    exists (lit "- " ++ s)%list. cbn [eval bind]. rewrite Hs.
    split; [reflexivity|].
    apply Forall_app. split; [|assumption].
    now apply ascii7_latin1.
  - destruct (Hint row Hrow) as (z & Hz). rewrite Hz.
    exists (str_of_int z). split; [reflexivity|].
    apply ascii7_latin1, str_of_int_ascii.
Qed.

End Origins.

Lemma drawn_texts_handed word_freq pdf e :
  all_handed word_freq pdf -> In e (drawn_texts pdf) -> origin word_freq e.
Proof.
  unfold all_handed, drawn_texts. intros Hall Hin.
  apply in_flat_map in Hin as (c & Hc & He).
  rewrite Forall_forall in Hall. specialize (Hall c Hc).
  unfold handed in Hall.
  destruct (call_text c) as [e'|]; [|contradiction].
  destruct He as [<-|[]]. assumption.
Qed.

(** C6, as the code has it: a text handed to a draw operation comes out of
    [sanitize_text], or is a fixed ASCII literal (headings, header and
    footer lines, the header row of the table), or is ["- "] followed by
    sanitized text, or is [str] of a frequency; and when the frequencies
    are integers, every such text holds only code points up to 255. *)
Theorem drawn_texts_origin (df : list TrendingTopic)
    (word_freq : list WordFrequency) (e : text_expr) :
  In e (drawn_texts (generate_pdf df word_freq)) ->
  origin word_freq e
  /\ (integer_frequencies word_freq ->
      exists s, eval e = Ok s /\ Forall (fun c => (c <= 255)%N) s).
Proof.
  intros Hin.
  assert (Ho : origin word_freq e)
    by (eapply drawn_texts_handed; [apply generate_pdf_handed|eassumption]).
  split; [assumption|]. now apply origin_latin1.
Qed.

Lemma drawn_texts_origin_witness :
  exists s,
    eval (StrOf (CInt 17)) = Ok s /\ Forall (fun c => (c <= 255)%N) s.
Proof.
  apply (drawn_texts_origin
           [ {| title := CStr (8212%N :: lit " markets") |} ]
           [ {| word := CStr (lit "rupee"); frequency := CInt 17 |} ]
           (StrOf (CInt 17))).
  - vm_compute. tauto.
  - intros row [<-|[]]. now exists 17%Z.
Defined.

(** The line of the header is handed over as the literal it is, on every
    run. *)
Lemma drawn_texts_counterexample :
  ~ (forall df word_freq e,
       In e (drawn_texts (generate_pdf df word_freq)) ->
       exists v, e = SanitizeText v).
Proof.
  intros H.
  destruct (H [] [] (Literal (lit "Trending Topics NLP Analysis Report")))
    as [v Hv]; [|discriminate Hv].
  vm_compute. tauto.
Qed.

(** A frequency that is text is handed over as it is. *)
Example frequency_text_unsanitized :
  eval (StrOf (CStr [8377%N])) = Ok [8377%N].
Proof. reflexivity. Qed.

(** ** Failure to load *)

Lemma load_data_raises fs e :
  load_data fs = Raise e <->
  trending_topics_csv fs = Raise e
  \/ ((exists df, trending_topics_csv fs = Ok df)
      /\ word_frequency_table_csv fs = Raise e).
Proof.
  unfold load_data.
  destruct (trending_topics_csv fs) as [df|e1];
    destruct (word_frequency_table_csv fs) as [wf|e2]; cbn;
    (split; [intros H | intros [H|[[df' H'] H]]]);
    try discriminate; injection H as ->;
    first [reflexivity | left; reflexivity
          | right; split; [eexists; reflexivity | reflexivity]].
Qed.

(** With an empty cache [load_data] raises as soon as one of the two files
    cannot be read. *)
Lemma load_data_fails fs :
  (exists e, trending_topics_csv fs = Raise e)
  \/ (exists e, word_frequency_table_csv fs = Raise e) ->
  exists e, cache_data (load_data fs) None = (Raise e, None).
Proof.
  unfold load_data, cache_data.
  intros [[e He]|[e He]]; rewrite He.
  - now exists e.
  - destruct (trending_topics_csv fs) as [df|e1]; cbn; eauto.
Qed.

(** C9: when one of the two files cannot be read, whichever it is, the run
    reports the error and stops: its actions are those before the load,
    the error message and [stop]; none of them writes the report or offers
    it for download, and no table is kept. *)
Theorem load_failure_halts (fs : files) (clicked : bool) :
  (exists e, trending_topics_csv fs = Raise e)
  \/ (exists e, word_frequency_table_csv fs = Raise e) ->
  app fs None clicked
  = (page_config
       ++ [st_error (lit "CSV files not found or invalid."); st_stop],
     None)
  /\ existsb is_output (fst (app fs None clicked)) = false
  /\ last (fst (app fs None clicked)) st_stop = st_stop.
Proof.
  intros Hfail. destruct (load_data_fails fs Hfail) as [e Hload].
  unfold app. rewrite Hload. repeat split.
Qed.

Lemma load_failure_halts_witness :
  existsb is_output
    (fst (app {| trending_topics_csv :=
                   Raise (FileNotFoundError "trending_topics.csv");
                 word_frequency_table_csv := Ok [] |} None true)) = false
  /\ existsb is_output
       (fst (app {| trending_topics_csv :=
                      Ok [ {| title := CStr (lit "markets") |} ];
                    word_frequency_table_csv := Raise ParserError |}
                 None true)) = false.
Proof.
  split.
  - apply (load_failure_halts
             {| trending_topics_csv :=
                  Raise (FileNotFoundError "trending_topics.csv");
                word_frequency_table_csv := Ok [] |} true).
    left. eexists. reflexivity.
  - apply (load_failure_halts
             {| trending_topics_csv :=
                  Ok [ {| title := CStr (lit "markets") |} ];
                word_frequency_table_csv := Raise ParserError |} true).
    right. eexists. reflexivity.
Defined.

(** * Further properties *)

(** ** The report as one sequence of calls *)


(** ** The sanitizer, character by character *)

Lemma substitute_output c x :
  In x (substitute c) -> (x <= 127)%N \/ x = c.
Proof.
  unfold substitute.
  repeat match goal with
  | |- context [if N.eqb c ?a then _ else _] =>
      destruct (N.eqb c a);
      [cbn; intros Hin; left;
       repeat (destruct Hin as [<-|Hin]; [lia|]); contradiction|]
  end.
  cbn. intros [<-|[]]. now right.
Qed.

Lemma substitute_length c : List.length (substitute c) <= 2.
Proof.
  unfold substitute.
  repeat match goal with
  | |- context [if N.eqb c ?a then _ else _] =>
      destruct (N.eqb c a); [cbn; lia|]
  end.
  cbn. lia.
Qed.

Lemma substitute_length_no_rupee c :
  c <> 8377%N -> List.length (substitute c) = 1.
Proof.
  unfold substitute. intros Hc.
  destruct (N.eqb_spec c 8377) as [->|_]; [congruence|].
  repeat match goal with
  | |- context [if N.eqb c ?a then _ else _] =>
      destruct (N.eqb c a); [reflexivity|]
  end.
  reflexivity.
Qed.

Lemma filter_length_bound {A} (f : A -> bool) l :
  List.length (filter f l) <= List.length l.
Proof.
  induction l as [|x l IH]; [reflexivity|].
  cbn. destruct (f x); cbn; lia.
Qed.

Lemma flat_map_length_bound {A B} (f : A -> list B) k l :
  (forall x, In x l -> List.length (f x) <= k) ->
  List.length (flat_map f l) <= k * List.length l.
Proof.
  induction l as [|x l IH]; intros Hf; [cbn; lia|].
  cbn [flat_map List.length]. rewrite length_app.
  specialize (Hf x (or_introl eq_refl)) as Hx.
  assert (Hl : List.length (flat_map f l) <= k * List.length l)
    by (apply IH; intros y Hy; apply Hf; now right).
  nia.
Qed.

(** The sanitizer works on every character by itself: the result for a
    concatenation is the concatenation of the results. *)
Theorem sanitize_text_concat (a b : str) :
  sanitize_text (VStr (a ++ b))
  = (x <- sanitize_text (VStr a) ;;
     y <- sanitize_text (VStr b) ;;
     Ok (x ++ y)%list).
Proof.
  rewrite !sanitize_text_str, !apply_replacements_substitute.
  cbn [bind]. now rewrite flat_map_app, filter_app.
Qed.

(** The result is at most twice as long as the text, and no longer than
    the text when it holds no rupee sign, the one character replaced by
    two. *)
Theorem sanitize_text_length_bound (s : str) :
  exists r,
    sanitize_text (VStr s) = Ok r
    /\ List.length r <= 2 * List.length s
    /\ (~ In 8377%N s -> List.length r <= List.length s).
Proof.
  rewrite sanitize_text_str, apply_replacements_substitute.
  eexists. split; [reflexivity|]. split.
  - etransitivity; [apply filter_length_bound|].
    apply flat_map_length_bound. intros c _. apply substitute_length.
  - intros Hno. etransitivity; [apply filter_length_bound|].
    rewrite <- (Nat.mul_1_l (List.length s)).
    apply flat_map_length_bound. intros c Hc.
    rewrite substitute_length_no_rupee; [lia|]. now intros ->.
Qed.

Lemma sanitize_text_length_bound_witness :
  exists r,
    sanitize_text (VStr (8212%N :: 20013%N :: lit "ab")) = Ok r
    /\ List.length r <= 4.
Proof.
  destruct (sanitize_text_length_bound (8212%N :: 20013%N :: lit "ab"))
    as (r & Hr & _ & Hlen).
  exists r. split; [exact Hr|]. apply Hlen.
  cbn. intros [H|[H|[H|[H|[]]]]]; discriminate H.
Defined.

(** What the sanitizer returns is accepted by the encoder with the handler
    [strict], which raises where [ignore] drops, and decodes to itself
    again. *)
Theorem sanitize_text_strict_roundtrip (v : value) :
  exists s b,
    sanitize_text v = Ok s
    /\ encode_latin1 Strict s = Ok b
    /\ decode_latin1 b = Ok s.
Proof.
  destruct (sanitize_text_returns v) as (s & Hs & Hle).
  destruct (encode_strict_decode s Hle) as (b & Hb & Hdec).
  now exists s, b.
Qed.

(** The texts the sanitizer returns unchanged are exactly those of code
    points up to 255. *)
Theorem sanitize_text_fixed_points (s : str) :
  sanitize_text (VStr s) = Ok s <-> Forall (fun c => (c <= 255)%N) s.
Proof.
  split; [|apply sanitize_text_fixes].
  rewrite sanitize_text_str. intros [= H]. rewrite <- H.
  apply filter_latin1_bound.
Qed.

(** The result is ASCII exactly when the text has no code point from 128
    to 255: these pass the sanitizer as they are. *)
Theorem sanitize_text_ascii_iff (s : str) :
  exists r,
    sanitize_text (VStr s) = Ok r
    /\ (Forall (fun c => (c <= 127)%N) r
        <-> Forall (fun c => (c <= 127)%N \/ (255 < c)%N) s).
Proof.
  rewrite sanitize_text_str, apply_replacements_substitute.
  eexists. split; [reflexivity|].
  rewrite !Forall_forall. split.
  - intros Hr c Hc.
    destruct (N.le_gt_cases c 255) as [Hle|Hgt]; [left|now right].
    apply Hr. apply filter_In. split; [|now apply N.leb_le].
    apply in_flat_map. exists c. split; [assumption|].
    rewrite substitute_latin1; [now left|now apply N.leb_le].
  - intros Hs x Hx. apply filter_In in Hx as [Hx Hlat].
    apply in_flat_map in Hx as (c & Hc & Hx).
    apply substitute_output in Hx as [Hx| ->]; [assumption|].
    apply N.leb_le in Hlat. destruct (Hs c Hc); lia.
Qed.

(** ** The texts of the report *)

Lemma summary_text_ascii n : forallb ascii7 (summary_text n) = true.
Proof.
  unfold summary_text.
  rewrite !forallb_app, str_of_int_ascii. reflexivity.
Qed.

(** Every text handed to a draw operation evaluates without an exception,
    whatever the tables hold, and holds only code points up to 255 unless
    it is [str] of a frequency that is text or a float. *)
Theorem drawn_texts_evaluate (df : list TrendingTopic)
    (word_freq : list WordFrequency) (e : text_expr) :
  In e (drawn_texts (generate_pdf df word_freq)) ->
  exists s,
    eval e = Ok s
    /\ (Forall (fun c => (c <= 255)%N) s
        \/ exists row t,
             In row (head 20 word_freq)
             /\ e = StrOf (frequency row)
             /\ (frequency row = CStr t \/ frequency row = CFloat t)).
Proof.
  intros Hin.
  assert (Ho : origin word_freq e)
    by (eapply drawn_texts_handed; [apply generate_pdf_handed|eassumption]).
  destruct Ho as [(v & ->)|[(s & -> & Hs)|[(v & ->)|(row & Hrow & ->)]]].
  - destruct (sanitize_text_returns v) as (s & Hs & Hle).
    exists s. split; [assumption|now left].
  - exists s. split; [reflexivity|]. left. now apply ascii7_latin1.
  - destruct (sanitize_text_returns v) as (s & Hs & Hle).
    exists (lit "- " ++ s)%list. cbn [eval bind]. rewrite Hs.
    split; [reflexivity|]. left.
    apply Forall_app. split; [now apply ascii7_latin1|assumption].
  - exists (py_str (frequency row)). split; [reflexivity|].
    destruct (frequency row) as [t|z|t|[|]] eqn:Hf.
    + right. exists row, t. rewrite Hf. auto.
    + left. apply ascii7_latin1, str_of_int_ascii.
    + right. exists row, t. rewrite Hf. auto.
    + left. now apply ascii7_latin1.
    + left. now apply ascii7_latin1.
Qed.

Lemma drawn_texts_evaluate_witness :
  exists s,
    eval (StrOf (CStr [8377%N; 53%N])) = Ok s
    /\ (Forall (fun c => (c <= 255)%N) s
        \/ exists row t,
             In row (head 20 [ {| word := CStr (lit "rupee");
                                  frequency := CStr [8377%N; 53%N] |} ])
             /\ StrOf (CStr [8377%N; 53%N]) = StrOf (frequency row)
             /\ (frequency row = CStr t \/ frequency row = CFloat t)).
Proof.
  apply (drawn_texts_evaluate []
           [ {| word := CStr (lit "rupee");
                frequency := CStr [8377%N; 53%N] |} ]
           (StrOf (CStr [8377%N; 53%N]))).
  vm_compute. tauto.
Defined.



(** The paragraph of the summary is the last call of its page; the
    sanitizer leaves its text as the f-string gives it, with the number of
    records of the table in decimal. *)
Theorem summary_paragraph (df : list TrendingTopic) (pdf : PDF) :
  let e := SanitizeText (VStr (summary_text (List.length df))) in
  (exists before,
     calls (executive_summary df pdf)
     = before ++ [MultiCell usable_width 7 e])
  /\ eval e = Ok (summary_text (List.length df))
  /\ summary_text (List.length df)
     = (lit "- Total articles analyzed: "
        ++ str_of_int (Z.of_nat (List.length df)) ++ [10%N]
        ++ lit "- Finance, sports, and global news dominate trends"
        ++ [10%N]
        ++ lit "- TF IDF highlights article specific relevance")%list
  /\ int_of_str (str_of_int (Z.of_nat (List.length df)))
     = Some (Z.of_nat (List.length df)).
Proof.
  cbv zeta. split; [|split; [|split]].
  - eexists. unfold executive_summary, multi_cell, emit. cbv zeta. cbn [calls].
    reflexivity.
  - cbn [eval]. apply sanitize_text_fixes, ascii7_latin1, summary_text_ascii.
  - reflexivity.
  - apply int_of_str_of_int.
Qed.

(** ** Runs of the script *)




(** A run writes the report and offers it for download only when the
    tables are loaded, the button is clicked and every draw operation of
    the generation is accepted. *)
Theorem app_output_only_if (fs : files) (cache : option tables)
    (clicked : bool) :
  existsb is_output (fst (app fs cache clicked)) = true ->
  clicked = true
  /\ exists df word_freq,
       fst (cache_data (load_data fs) cache) = Ok (df, word_freq)
       /\ run (calls (generate_pdf df word_freq))
          = (calls (generate_pdf df word_freq), None).
Proof.
  unfold app.
  destruct (cache_data (load_data fs) cache) as [[[df wf]|e] cache'];
    cbn [fst].
  - unfold pdf_generation. rewrite !existsb_app.
    destruct clicked; [|discriminate].
    cbv zeta.
    destruct (run (calls (generate_pdf df wf))) as [made [ex|]] eqn:Hrun;
      [discriminate|].
    intros _. split; [reflexivity|]. exists df, wf. split; [reflexivity|].
    rewrite Hrun. apply run_none in Hrun as [-> _]. reflexivity.
  - rewrite existsb_app. discriminate.
Qed.

Lemma app_output_only_if_witness :
  exists df word_freq,
    fst (cache_data
           (load_data {| trending_topics_csv :=
                           Ok [ {| title := CStr (lit "markets") |} ];
                         word_frequency_table_csv :=
                           Ok [ {| word := CStr (lit "rupee");
                                   frequency := CInt 3 |} ] |})
           None)
    = Ok (df, word_freq)
    /\ run (calls (generate_pdf df word_freq))
       = (calls (generate_pdf df word_freq), None).
Proof.
  apply (app_output_only_if
           {| trending_topics_csv :=
                Ok [ {| title := CStr (lit "markets") |} ];
              word_frequency_table_csv :=
                Ok [ {| word := CStr (lit "rupee");
                        frequency := CInt 3 |} ] |}
           None true).
  vm_compute. reflexivity.
Defined.

(** Once the tables are loaded they are kept: a later run does not read
    the files, and shows and renders the tables of the first load whatever
    the files have become. *)
Theorem cache_reuse (fs fs' : files) (clicked clicked' : bool)
    (df : list TrendingTopic) (word_freq : list WordFrequency) :
  load_data fs = Ok (df, word_freq) ->
  snd (app fs None clicked) = Some (df, word_freq)
  /\ app fs' (snd (app fs None clicked)) clicked'
     = (page_config ++ data_preview df word_freq
          ++ pdf_generation df word_freq clicked',
        Some (df, word_freq)).
Proof.
  intros Hload.
  assert (Hcache : snd (app fs None clicked) = Some (df, word_freq))
    by (unfold app, cache_data; now rewrite Hload).
  split; [assumption|]. rewrite Hcache. reflexivity.
Qed.

Lemma cache_reuse_witness :
  app {| trending_topics_csv := Raise (FileNotFoundError "trending_topics.csv");
         word_frequency_table_csv := Raise EmptyDataError |}
      (snd (app {| trending_topics_csv := Ok [ {| title := CStr (lit "a") |} ];
                   word_frequency_table_csv := Ok [] |} None false))
      true
  = (page_config ++ data_preview [ {| title := CStr (lit "a") |} ] []
       ++ pdf_generation [ {| title := CStr (lit "a") |} ] [] true,
     Some ([ {| title := CStr (lit "a") |} ], [])).
Proof.
  apply (cache_reuse
           {| trending_topics_csv := Ok [ {| title := CStr (lit "a") |} ];
              word_frequency_table_csv := Ok [] |}
           {| trending_topics_csv :=
                Raise (FileNotFoundError "trending_topics.csv");
              word_frequency_table_csv := Raise EmptyDataError |}
           false true [ {| title := CStr (lit "a") |} ] []).
  reflexivity.
Defined.
